(** * whatnext: task records over a graph's node attributes

    A shallow embedding of [whatnext/data_model.py] and [whatnext/tasks.py].

    - The two pydantic models are records; a field that is [Optional] in the
      source (or left out of a node's attributes) is an [option].
    - The graph is consumed through its node view only: a finite map from node
      id to that node's attribute mapping.  Attribute values are the Python
      values the task layer stores.
    - Functions that read or write the graph run in a small state-and-exception
      monad [M]: the state is the graph, a raised Python exception is [Raise],
      and the graph in which the exception surfaces is kept, so that "raised
      before any write" is a statement about the returned graph.
    - Calls into pydantic and networkx behave as the libraries do, also where
      the call cannot succeed: the model constructor takes keyword arguments
      only, a node view has no item assignment, a plain dict has no [dict]
      method, and a required field does not take [None].
    - The wall clock read by [complete_task] is an explicit argument [now];
      the sort routine of [whatnext/graph.py] and [re.compile] are parameters
      of the listing section. *)

From Stdlib Require Import ZArith String List Floats.PrimFloat.
From stdpp Require Import base option gmap strings list fin_maps.

Open Scope string_scope.
Open Scope list_scope.
Open Scope Z_scope.

#[local] Set Warnings "-clear-no-such-hyp".

(** ** Python values and exceptions *)

(** [datetime.datetime] values are only stored, copied and tested for
    truthiness (every datetime object is truthy); they are represented by a
    timestamp. *)
Definition datetime : Type := Z.

Abbreviation float := PrimFloat.float.

Inductive exn : Type :=
| KeyError
| TypeError
| IndexError
| AttributeError
| ValidationError
| ReError
| NotImplementedError.

Inductive result (A : Type) : Type :=
| Ok (a : A)
| Raise (e : exn).
Arguments Ok {A} a.
Arguments Raise {A} e.

#[global] Instance result_ret : MRet result := fun A a => Ok a.
#[global] Instance result_bind : MBind result := fun A B f r =>
  match r with
  | Ok a => f a
  | Raise e => Raise e
  end.

(** ** data_model.py *)

Module TimeLog.
(** [note] is declared [str]: a log always has one. *)
Record t : Type := mk {
  task_id : Z;
  user_id : string;
  start_time : option datetime;
  end_time : option datetime;
  note : string;
}.

Definition set_end_time (e : option datetime) (l : t) : t :=
  mk (task_id l) (user_id l) (start_time l) e (note l).
End TimeLog.

Module Task.
Record t : Type := mk {
  user_id : string;
  task_id : Z;
  name : string;
  importance : float;
  completed : option bool;
  due : option datetime;
  tags : option (list string);
  urls : option (list string);
  users : option (list string);
  notes : option (list string);
  time_logs : option (list TimeLog.t);
}.

Definition set_user_id (v : string) (x : t) : t :=
  mk v (task_id x) (name x) (importance x) (completed x) (due x)
     (tags x) (urls x) (users x) (notes x) (time_logs x).
Definition set_task_id (v : Z) (x : t) : t :=
  mk (user_id x) v (name x) (importance x) (completed x) (due x)
     (tags x) (urls x) (users x) (notes x) (time_logs x).
Definition set_name (v : string) (x : t) : t :=
  mk (user_id x) (task_id x) v (importance x) (completed x) (due x)
     (tags x) (urls x) (users x) (notes x) (time_logs x).
Definition set_importance (v : float) (x : t) : t :=
  mk (user_id x) (task_id x) (name x) v (completed x) (due x)
     (tags x) (urls x) (users x) (notes x) (time_logs x).
Definition set_completed (v : option bool) (x : t) : t :=
  mk (user_id x) (task_id x) (name x) (importance x) v (due x)
     (tags x) (urls x) (users x) (notes x) (time_logs x).
Definition set_due (v : option datetime) (x : t) : t :=
  mk (user_id x) (task_id x) (name x) (importance x) (completed x) v
     (tags x) (urls x) (users x) (notes x) (time_logs x).
Definition set_tags (v : option (list string)) (x : t) : t :=
  mk (user_id x) (task_id x) (name x) (importance x) (completed x) (due x)
     v (urls x) (users x) (notes x) (time_logs x).
Definition set_urls (v : option (list string)) (x : t) : t :=
  mk (user_id x) (task_id x) (name x) (importance x) (completed x) (due x)
     (tags x) v (users x) (notes x) (time_logs x).
Definition set_users (v : option (list string)) (x : t) : t :=
  mk (user_id x) (task_id x) (name x) (importance x) (completed x) (due x)
     (tags x) (urls x) v (notes x) (time_logs x).
Definition set_notes (v : option (list string)) (x : t) : t :=
  mk (user_id x) (task_id x) (name x) (importance x) (completed x) (due x)
     (tags x) (urls x) (users x) v (time_logs x).
Definition set_time_logs (v : option (list TimeLog.t)) (x : t) : t :=
  mk (user_id x) (task_id x) (name x) (importance x) (completed x) (due x)
     (tags x) (urls x) (users x) (notes x) v.
End Task.

(** ** Node attributes *)

(** The values found under a node's attribute keys.  A time log is stored as
    a plain record ([.dict(exclude_none=True)]: a [None] field is a key left
    out), which is the same data as the [TimeLog.t] it came from. *)
Inductive value : Type :=
| VInt (z : Z)
| VFloat (f : float)
| VStr (s : string)
| VBool (b : bool)
| VTime (d : datetime)
| VStrs (l : list string)
| VLogs (l : list TimeLog.t).

Abbreviation attrs := (gmap string value).
Abbreviation graph := (gmap Z (gmap string value)).

(** A Python [dict] under construction: its items in insertion order. *)
Abbreviation pydict := (list (string * value)).

Fixpoint dict_get (k : string) (d : pydict) : option value :=
  match d with
  | [] => None
  | (k', v) :: d' => if decide (k' = k) then Some v else dict_get k d'
  end.

(** [d[k] = v]: an existing key keeps its place, a new one goes last. *)
Fixpoint dict_set (k : string) (v : value) (d : pydict) : pydict :=
  match d with
  | [] => [(k, v)]
  | (k', v') :: d' =>
      if decide (k' = k) then (k, v) :: d' else (k', v') :: dict_set k v d'
  end.

(** [del d[k]]; [KeyError] when the key is missing. *)
Definition dict_del (k : string) (d : pydict) : result pydict :=
  match dict_get k d with
  | Some _ => Ok (filter (fun kv => kv.1 ≠ k) d)
  | None => Raise KeyError
  end.

(** ** The pydantic boundary *)

Definition opt_item (k : string) (v : option value) : pydict :=
  match v with
  | Some x => [(k, x)]
  | None => []
  end.

(** [task.dict(exclude_defaults=True, exclude_none=True, exclude_unset=True)]:
    the required fields, then every optional field that holds a value. *)
Definition Task_dict (task : Task.t) : pydict :=
  [ ("user_id", VStr (Task.user_id task));
    ("task_id", VInt (Task.task_id task));
    ("name", VStr (Task.name task));
    ("importance", VFloat (Task.importance task)) ]
  ++ opt_item "completed" (VBool <$> Task.completed task)
  ++ opt_item "due" (VTime <$> Task.due task)
  ++ opt_item "tags" (VStrs <$> Task.tags task)
  ++ opt_item "urls" (VStrs <$> Task.urls task)
  ++ opt_item "users" (VStrs <$> Task.users task)
  ++ opt_item "notes" (VStrs <$> Task.notes task)
  ++ opt_item "time_logs" (VLogs <$> Task.time_logs task).

(** Field validators of the [Task] constructor.  A value of another shape than
    the field's is rejected; pydantic's coercions between scalar types are
    not modelled (the task layer itself only stores what [Task_dict] yields). *)
Definition required {A : Type} (r : result (option A)) : result A :=
  o ← r; match o with Some a => Ok a | None => Raise ValidationError end.

Definition field_str (a : attrs) (k : string) : result (option string) :=
  match a !! k with
  | None => Ok None
  | Some (VStr s) => Ok (Some s)
  | Some _ => Raise ValidationError
  end.
Definition field_int (a : attrs) (k : string) : result (option Z) :=
  match a !! k with
  | None => Ok None
  | Some (VInt z) => Ok (Some z)
  | Some _ => Raise ValidationError
  end.
Definition field_float (a : attrs) (k : string) : result (option float) :=
  match a !! k with
  | None => Ok None
  | Some (VFloat f) => Ok (Some f)
  | Some _ => Raise ValidationError
  end.
Definition field_bool (a : attrs) (k : string) : result (option bool) :=
  match a !! k with
  | None => Ok None
  | Some (VBool b) => Ok (Some b)
  | Some _ => Raise ValidationError
  end.
Definition field_time (a : attrs) (k : string) : result (option datetime) :=
  match a !! k with
  | None => Ok None
  | Some (VTime d) => Ok (Some d)
  | Some _ => Raise ValidationError
  end.
Definition field_strs (a : attrs) (k : string) : result (option (list string)) :=
  match a !! k with
  | None => Ok None
  | Some (VStrs l) => Ok (Some l)
  | Some _ => Raise ValidationError
  end.
Definition field_logs (a : attrs) (k : string) : result (option (list TimeLog.t)) :=
  match a !! k with
  | None => Ok None
  | Some (VLogs l) => Ok (Some l)
  | Some _ => Raise ValidationError
  end.

(** The [Task] constructor applied to a mapping's items as keyword
    arguments: required fields must be present, optional ones
    default to [None], keys that are no field of the model (such as [kind])
    are ignored. *)
Definition Task_init (a : attrs) : result Task.t :=
  user_id ← required (field_str a "user_id");
  task_id ← required (field_int a "task_id");
  name ← required (field_str a "name");
  importance ← required (field_float a "importance");
  completed ← field_bool a "completed";
  due ← field_time a "due";
  tags ← field_strs a "tags";
  urls ← field_strs a "urls";
  users ← field_strs a "users";
  notes ← field_strs a "notes";
  time_logs ← field_logs a "time_logs";
  Ok (Task.mk user_id task_id name importance completed due
        tags urls users notes time_logs).

(** [Task(d)], the mapping passed as a positional argument.  The
    constructor of a model takes keyword arguments only, so the call is a
    [TypeError] whatever the mapping holds. *)
Definition Task_call (a : attrs) : result Task.t := Raise TypeError.

(** [TimeLog(task_id=.., user_id=.., start_time=.., end_time=.., note=..)]:
    the two optional fields take [None], the required [note] does not. *)
Definition TimeLog_init (task_id : Z) (user_id : string)
    (start_time end_time : option datetime) (note : option string)
    : result TimeLog.t :=
  match note with
  | Some s => Ok (TimeLog.mk task_id user_id start_time end_time s)
  | None => Raise ValidationError
  end.

(** ** The graph boundary *)

Definition M (A : Type) : Type := graph → graph * result A.

#[global] Instance M_ret : MRet M := fun A a g => (g, Ok a).
#[global] Instance M_bind : MBind M := fun A B f m g =>
  match m g with
  | (g', Ok a) => f a g'
  | (g', Raise e) => (g', Raise e)
  end.

Definition raise {A : Type} (e : exn) : M A := fun g => (g, Raise e).
Definition lift {A : Type} (r : result A) : M A := fun g => (g, r).

(** [len(graph.nodes)] *)
Definition nodes_len : M Z := fun g => (g, Ok (Z.of_nat (size g))).

(** [n in graph.nodes] *)
Definition nodes_contains (n : Z) : M bool :=
  fun g => (g, Ok (bool_decide (is_Some (g !! n)))).

(** [graph.nodes[n]]: the node's attribute mapping, [KeyError] when absent. *)
Definition nodes_getitem (n : Z) : M attrs := fun g =>
  match g !! n with
  | Some a => (g, Ok a)
  | None => (g, Raise KeyError)
  end.

(** [graph.nodes[n][k] = v] *)
Definition node_setattr (n : Z) (k : string) (v : value) : M unit := fun g =>
  match g !! n with
  | Some a => (<[n := <[k := v]> a]> g, Ok tt)
  | None => (g, Raise KeyError)
  end.

(** [graph.nodes[n] = d]: the node view is read-only (it has no item
    assignment), so this is a [TypeError] and nothing is stored. *)
Definition nodes_setitem (n : Z) (d : pydict) : M unit := raise TypeError.

(** [graph.add_node(n, **d)]: a new node gets the attributes, an existing
    node has them merged into its mapping. *)
Definition add_node (n : Z) (d : pydict) : M unit :=
  fun g => (<[n := list_to_map d ∪ default ∅ (g !! n)]> g, Ok tt).

(** [for k, v in d.items(): body k v] *)
Fixpoint for_items (d : pydict) (body : string → value → M unit) : M unit :=
  match d with
  | [] => mret tt
  | (k, v) :: d' => body k v ≫= fun _ => for_items d' body
  end.

(** ** tasks.py: the adapter *)

Definition create_task (task : Task.t) : M Z :=
  if Task.task_id task <? 0 then
    n ← nodes_len;
    let task := Task.set_task_id n task in
    let task_spec := Task_dict task in
    add_node (Task.task_id task) (("kind", VStr "task") :: task_spec) ≫= fun _ =>
    mret (Task.task_id task)
  else if decide (Task.name task = "_existing_node") then
    task_spec ← lift (dict_del "name" (Task_dict task));
    for_items task_spec (node_setattr (Task.task_id task)) ≫= fun _ =>
    mret (Task.task_id task)
  else
    let task_spec := Task_dict task in
    add_node (Task.task_id task) (("kind", VStr "task") :: task_spec) ≫= fun _ =>
    mret (Task.task_id task).

Definition delete_task (task_id : Z) : M Z := raise NotImplementedError.

(** The node is looked up first ([KeyError] when it is absent), then the
    constructor is called on the mapping. *)
Definition get_task_from_graph (task_id : Z) : M Task.t :=
  a ← nodes_getitem task_id;
  lift (Task_call a).

(** The logs found under a dict's [time_logs] key, [[]] when there is none. *)
Definition get_time_logs (d : pydict) : list TimeLog.t :=
  match dict_get "time_logs" d with
  | Some (VLogs l) => l
  | _ => []
  end.

(** [time_log.dict(...)] on an entry of [task_spec["time_logs"]].  The
    entries are plain dicts by then ([task.dict()] converts the logs too), and
    a dict has no [dict] attribute. *)
Definition TimeLog_dict (l : TimeLog.t) : result TimeLog.t := Raise AttributeError.

(** [[f x for x in l]] for a step that can raise. *)
Fixpoint comprehension {A B : Type} (f : A → result B) (l : list A)
    : result (list B) :=
  match l with
  | [] => Ok []
  | x :: l' => y ← f x; r ← comprehension f l'; Ok (y :: r)
  end.

Definition update_task_in_graph (task : Task.t) : M unit :=
  let task_spec := Task_dict task in
  logs ← lift (comprehension TimeLog_dict (get_time_logs task_spec));
  let task_spec := dict_set "time_logs" (VLogs logs) task_spec in
  nodes_setitem (Task.task_id task) task_spec.

(** ** Python built-ins used by the operations *)

(** Truthiness of an [Optional[bool]]: [None] and [False] are falsy. *)
Definition truthy (o : option bool) : bool := default false o.

(** [len(x)]: [None] has no length. *)
Definition py_len {A : Type} (o : option (list A)) : result Z :=
  match o with
  | Some l => Ok (Z.of_nat (length l))
  | None => Raise TypeError
  end.

(** A list index as Python resolves it: a negative index counts from the
    end, and what then falls outside the list is an [IndexError]. *)
Definition py_index {A : Type} (l : list A) (i : Z) : result nat :=
  let n := Z.of_nat (length l) in
  let j := if i <? 0 then i + n else i in
  if (0 <=? j) && (j <? n) then Ok (Z.to_nat j) else Raise IndexError.

(** [l[i] = x] *)
Definition list_setitem {A : Type} (i : Z) (x : A) (l : list A) : result (list A) :=
  j ← py_index l i; Ok (<[j := x]> l).

(** [l.pop(i)], keeping the list that is left. *)
Definition list_pop {A : Type} (i : Z) (l : list A) : result (list A) :=
  j ← py_index l i; Ok (delete j l).

(** [set(x)] for an optional list of strings: [None] is not iterable. *)
Definition pyset (o : option (list string)) : result (gset string) :=
  match o with
  | Some l => Ok (list_to_set l)
  | None => Raise TypeError
  end.

(** The argument of [set.remove]: the operations pass a string, and
    [remove_user] passes the set itself. *)
Inductive pyobj : Type :=
| PStr (s : string)
| PSet (s : gset string).

(** [s.remove(x)].  A set argument is looked up as a frozenset, which no
    member of a set of strings equals. *)
Definition set_remove (x : pyobj) (s : gset string) : result (gset string) :=
  match x with
  | PStr v => if decide (v ∈ s) then Ok (s ∖ {[v]}) else Raise KeyError
  | PSet _ => Raise KeyError
  end.

(** [set(v)] for a stored attribute value. *)
Definition set_of_value (v : value) : result (gset string) :=
  match v with
  | VStrs l => Ok (list_to_set l)
  | VStr s => Ok (list_to_set ((fun c => String c EmptyString) <$> list_ascii_of_string s))
  | VLogs [] => Ok ∅
  | VLogs (_ :: _) => Raise TypeError
  | VInt _ | VFloat _ | VBool _ | VTime _ => Raise TypeError
  end.

(** ** tasks.py: single-task operations *)

Definition update_task (task_id : Z) (user_id name : option string)
    (completed : option bool) (importance : option float)
    (due : option datetime) : M (option Task.t) :=
  present ← nodes_contains task_id;
  if (present : bool) then
    task ← get_task_from_graph task_id;
    let task :=
      match user_id with
      | Some u => if bool_decide (String.length u ≠ 0%nat)
                  then Task.set_user_id u task else task
      | None => task
      end in
    let task :=
      match name with
      | Some s => if bool_decide (String.length s ≠ 0%nat)
                  then Task.set_name s task else task
      | None => task
      end in
    let task :=
      match completed with
      | Some b => Task.set_completed (Some b) task
      | None => task
      end in
    let task :=
      match importance with
      | Some f => Task.set_importance f task
      | None => task
      end in
    let task :=
      match due with
      | Some d => Task.set_due (Some d) task
      | None => task
      end in
    update_task_in_graph task ≫= fun _ =>
    mret (Some task)
  else mret None.

(** [now] is the value [datetime.datetime.now()] would return.  The test
    [task is None] of the source cannot succeed: a constructor call returns
    an object or raises, so the lookup's [KeyError] is what an absent id
    gives. *)
Definition complete_task (task_id : Z) (end_time : option datetime)
    (now : datetime) : M (option Task.t) :=
  let end_time := default now end_time in
  task ← get_task_from_graph task_id;
  if truthy (Task.completed task) then mret (Some task)
  else
    let task := Task.set_completed (Some true) task in
    n ← lift (py_len (Task.time_logs task));
    let logs := default [] (Task.time_logs task) in
    logs ← (if bool_decide (n ≠ 0) then
              mret
                match last logs with
                | Some last_log =>
                    match TimeLog.end_time last_log with
                    | None =>
                        <[pred (length logs) :=
                            TimeLog.set_end_time (Some end_time) last_log]> logs
                    | Some _ => logs
                    end
                | None => logs
                end
            else
              time_log ← lift (TimeLog_init (Task.task_id task) (Task.user_id task)
                                 None (Some end_time) None);
              mret (logs ++ [time_log]));
    let task := Task.set_time_logs (Some logs) task in
    update_task_in_graph task ≫= fun _ =>
    mret (Some task).

Definition add_tag (task_id : Z) (tag : string) : M unit :=
  task ← get_task_from_graph task_id;
  tags ← lift (pyset (Task.tags task));
  let tags := {[tag]} ∪ tags in
  let task := Task.set_tags (Some (elements tags)) task in
  update_task_in_graph task.

Definition remove_tag (task_id : Z) (tag : string) : M unit :=
  task ← get_task_from_graph task_id;
  tags ← lift (pyset (Task.tags task));
  tags ← lift (set_remove (PStr tag) tags);
  let task := Task.set_tags (Some (elements tags)) task in
  update_task_in_graph task.

Definition add_url (task_id : Z) (url : string) : M unit :=
  task ← get_task_from_graph task_id;
  urls ← lift (pyset (Task.urls task));
  let urls := {[url]} ∪ urls in
  let task := Task.set_urls (Some (elements urls)) task in
  update_task_in_graph task.

Definition remove_url (task_id : Z) (url : string) : M unit :=
  task ← get_task_from_graph task_id;
  urls ← lift (pyset (Task.urls task));
  urls ← lift (set_remove (PStr url) urls);
  let task := Task.set_urls (Some (elements urls)) task in
  update_task_in_graph task.

Definition add_user (task_id : Z) (user : string) : M unit :=
  task ← get_task_from_graph task_id;
  users ← lift (pyset (Task.users task));
  let users := {[user]} ∪ users in
  let task := Task.set_users (Some (elements users)) task in
  update_task_in_graph task.

(** The source removes [users], the set, not [user], the argument. *)
Definition remove_user (task_id : Z) (user : string) : M unit :=
  task ← get_task_from_graph task_id;
  users ← lift (pyset (Task.users task));
  users ← lift (set_remove (PSet users) users);
  let task := Task.set_users (Some (elements users)) task in
  update_task_in_graph task.

Definition add_note (task_id : Z) (note : string) : M unit :=
  task ← get_task_from_graph task_id;
  let task :=
    match Task.notes task with
    | None => Task.set_notes (Some []) task
    | Some _ => task
    end in
  let task := Task.set_notes (Some (default [] (Task.notes task) ++ [note])) task in
  update_task_in_graph task.

Definition update_note (task_id : Z) (note_id : Z) (note : string) : M unit :=
  task ← get_task_from_graph task_id;
  n ← lift (py_len (Task.notes task));
  task ← (if note_id <? n then
            notes ← lift (list_setitem note_id note (default [] (Task.notes task)));
            mret (Task.set_notes (Some notes) task)
          else mret task);
  update_task_in_graph task.

(** [0 <= note_id < len(task.notes)] is a chained comparison: the length is
    only taken when the first test holds. *)
Definition remove_note (task_id : Z) (note_id : Z) : M unit :=
  task ← get_task_from_graph task_id;
  if 0 <=? note_id then
    n ← lift (py_len (Task.notes task));
    if note_id <? n then
      notes ← lift (list_pop note_id (default [] (Task.notes task)));
      let task := Task.set_notes (Some notes) task in
      update_task_in_graph task
    else mret tt
  else mret tt.

(** ** tasks.py: listing *)

(** [[x for x in l if cond x]] *)
Fixpoint filterM {A : Type} (cond : A → M bool) (l : list A) : M (list A) :=
  match l with
  | [] => mret []
  | x :: l' =>
      b ← cond x;
      r ← filterM cond l';
      mret (if (b : bool) then x :: r else r)
  end.

(** [[f x for x in l]] *)
Fixpoint mapM {A B : Type} (f : A → M B) (l : list A) : M (list B) :=
  match l with
  | [] => mret []
  | x :: l' =>
      y ← f x;
      r ← mapM f l';
      mret (y :: r)
  end.

(** [x is not None and len(x)] for an optional string or list. *)
Definition given_str (o : option string) : bool :=
  match o with
  | Some s => bool_decide (String.length s ≠ 0%nat)
  | None => false
  end.
Definition given_list (o : option (list string)) : bool :=
  match o with
  | Some l => bool_decide (length l ≠ 0%nat)
  | None => false
  end.

(** [len(set(graph.nodes[node_id].get(key, [])).intersection(wanted))] as a
    condition. *)
Definition intersects (key : string) (wanted : gset string) (node_id : Z) : M bool :=
  a ← nodes_getitem node_id;
  s ← lift (set_of_value (default (VStrs []) (a !! key)));
  mret (bool_decide (size (s ∩ wanted) ≠ 0%nat)).

Section Listing.
(** [sort_nodes] lives in [whatnext/graph.py], which this development does
    not embed; it is a parameter, and so is [re.compile] with the type of the
    pattern objects it returns. *)
Variable sort_nodes : graph → string → Z → bool → bool → result (list Z).
Variable Pattern : Type.
Variable re_compile : string → result Pattern.

(** [pattern(x)]: a compiled pattern is not callable (matching goes through
    its [search] or [match] methods, which the source does not use). *)
Definition call_pattern (pattern : Pattern) (x : value) : result bool :=
  Raise TypeError.

Definition name_matches (pattern : Pattern) (node_id : Z) : M bool :=
  a ← nodes_getitem node_id;
  lift (call_pattern pattern (default (VStr "") (a !! "name"))).

Definition list_tasks (sort_by : string) (limit : Z) (ascending only_leaves : bool)
    (search : option string) (tags urls users : option (list string))
    : M (list Task.t) :=
  node_ids ← (fun g => (g, sort_nodes g sort_by limit ascending only_leaves));
  node_ids ← (if given_str search then
                pattern ← lift (re_compile (default "" search));
                filterM (name_matches pattern) node_ids
              else mret node_ids);
  node_ids ← (if given_list tags then
                let tags : gset string := list_to_set (default [] tags) in
                filterM (intersects "tags" tags) node_ids
              else mret node_ids);
  node_ids ← (if given_list urls then
                let urls : gset string := list_to_set (default [] urls) in
                filterM (intersects "urls" urls) node_ids
              else mret node_ids);
  node_ids ← (if given_list users then
                let users : gset string := list_to_set (default [] users) in
                filterM (intersects "users" users) node_ids
              else mret node_ids);
  (* the [print] call looks every node up once more *)
  mapM nodes_getitem node_ids ≫= fun _ =>
  mapM (fun node_id => a ← nodes_getitem node_id; lift (Task_init a)) node_ids.
End Listing.

(** ** Vocabulary of the statements *)

(** The task that node [task_id] holds: what the constructor makes of the
    node's mapping taken as keyword arguments. *)
Definition stored (g : graph) (task_id : Z) (task : Task.t) : Prop :=
  ∃ a, g !! task_id = Some a ∧ Task_init a = Ok task.

(** Every node of the graph holds a task. *)
Definition task_graph (g : graph) : Prop :=
  ∀ n a, g !! n = Some a → ∃ task, Task_init a = Ok task.

(** The keys of the [Task] model, and what a task holds under each. *)
Definition Task_keys : list string :=
  [ "user_id"; "task_id"; "name"; "importance"; "completed"; "due";
    "tags"; "urls"; "users"; "notes"; "time_logs" ].

Definition Task_attr (task : Task.t) (k : string) : option value :=
  if decide (k = "user_id") then Some (VStr (Task.user_id task))
  else if decide (k = "task_id") then Some (VInt (Task.task_id task))
  else if decide (k = "name") then Some (VStr (Task.name task))
  else if decide (k = "importance") then Some (VFloat (Task.importance task))
  else if decide (k = "completed") then VBool <$> Task.completed task
  else if decide (k = "due") then VTime <$> Task.due task
  else if decide (k = "tags") then VStrs <$> Task.tags task
  else if decide (k = "urls") then VStrs <$> Task.urls task
  else if decide (k = "users") then VStrs <$> Task.users task
  else if decide (k = "notes") then VStrs <$> Task.notes task
  else if decide (k = "time_logs") then VLogs <$> Task.time_logs task
  else None.

(** A task of an existing node, with the fields of [task] laid over it. *)
Definition Task_merge (task old : Task.t) : Task.t :=
  Task.mk (Task.user_id task) (Task.task_id task) (Task.name task)
    (Task.importance task)
    (Task.completed task ∪ Task.completed old)
    (Task.due task ∪ Task.due old)
    (Task.tags task ∪ Task.tags old)
    (Task.urls task ∪ Task.urls old)
    (Task.users task ∪ Task.users old)
    (Task.notes task ∪ Task.notes old)
    (Task.time_logs task ∪ Task.time_logs old).




(** The graph's ids are [0 .. size - 1], as they are when every task was
    created with a negative id. *)
Definition dense (g : graph) : Prop :=
  ∀ n, is_Some (g !! n) ↔ 0 ≤ n < Z.of_nat (size g).

(** Every node holds a task whose [task_id] field is the node's id. *)
Definition consistent (g : graph) : Prop :=
  ∀ n a, g !! n = Some a → ∃ task, Task_init a = Ok task ∧ Task.task_id task = n.

(** ** Sample data *)

(** A task as a caller first passes it: no id yet, no optional field. *)
Definition new_task : Task.t :=
  Task.mk "ann" (-1) "write spec" 5%float None None None None None None None.

(** The graph after [create_task] on the empty graph: one node, id [0]. *)
Definition graph0 : graph := (create_task new_task ∅).1.
Definition task0 : Task.t := Task.set_task_id 0 new_task.

Definition attrs0 : attrs :=
  list_to_map (("kind", VStr "task") :: Task_dict task0).

(** A task that carries tags, users, notes and an empty log list. *)
Definition full_task : Task.t :=
  Task.mk "ann" (-1) "review" 3%float None None
    (Some ["a"; "b"]) None (Some ["bob"]) (Some ["a"; "b"]) (Some []).
Definition graph1 : graph := (create_task full_task ∅).1.
Definition task1 : Task.t := Task.set_task_id 0 full_task.

(** A patch for node [0] in the form [create_task] takes it. *)
Definition patch_task : Task.t :=
  Task.mk "ann" 0 "_existing_node" 8%float (Some false) None
    (Some ["late"]) None None None None.

(** A second task, and the graph that holds both: ids [0] and [1]. *)
Definition other_task : Task.t :=
  Task.mk "bob" (-1) "abc" 1%float None None (Some ["z"]) None None None None.
Definition graph2 : graph := (create_task other_task graph1).1.

Definition attrs_other : attrs :=
  list_to_map (("kind", VStr "task") :: Task_dict (Task.set_task_id 1 other_task)).

(** Stand-ins for the two parameters of the listing: every node id in the
    order of the map, cut at [limit]; and a [re.compile] that accepts every
    pattern and keeps its text. *)
Definition sample_sort (g : graph) (sort_by : string) (limit : Z)
    (ascending only_leaves : bool) : result (list Z) :=
  Ok (take (Z.to_nat limit) (map_to_list g).*1).
Definition sample_compile (s : string) : result string := Ok s.

(** A task that was created as completed, under id [0]. *)
Definition done_task : Task.t :=
  Task.mk "ann" (-1) "done" 1%float (Some true) None None None None None None.
Definition graph_done : graph := (create_task done_task ∅).1.

(** A graph whose only node has the id [1], chosen by the caller. *)
Definition placed_task : Task.t := Task.set_task_id 1 other_task.
Definition graph4 : graph := (create_task placed_task ∅).1.

(** ** Dictionaries and the [Task] constructor *)

#[global] Arguments update_task_in_graph : simpl never.
#[global] Arguments get_task_from_graph : simpl never.
#[global] Arguments Task_dict : simpl never.
#[global] Arguments Task_init : simpl never.

Lemma lookup_pydict (d : pydict) (k : string) :
  (list_to_map d : attrs) !! k = dict_get k d.
Proof.
  induction d as [|[k' v] d IH]; simpl.
  - apply lookup_empty.
  - rewrite lookup_insert. destruct (decide (k' = k)); [done | exact IH].
Qed.

Lemma dict_get_cons_ne (d : pydict) (k k' : string) (v : value) :
  k' ≠ k → dict_get k ((k', v) :: d) = dict_get k d.
Proof. intros Hne. simpl. by rewrite decide_False. Qed.

Lemma dict_get_app (d1 d2 : pydict) (k : string) :
  dict_get k (d1 ++ d2) =
    match dict_get k d1 with Some v => Some v | None => dict_get k d2 end.
Proof.
  induction d1 as [|[k' v] d1 IH]; simpl; [done |].
  destruct (decide (k' = k)); [done | exact IH].
Qed.

Lemma dict_get_opt_item (k k' : string) (o : option value) :
  dict_get k (opt_item k' o) = if decide (k' = k) then o else None.
Proof. destruct o; simpl; [done | by case_decide]. Qed.

Lemma dict_get_set (d : pydict) (k k' : string) (v : value) :
  dict_get k (dict_set k' v d) = if decide (k' = k) then Some v else dict_get k d.
Proof.
  induction d as [|[k0 v0] d IH]; simpl; [done |].
  destruct (decide (k0 = k')) as [->|Hne]; simpl.
  - destruct (decide (k' = k)); done.
  - destruct (decide (k0 = k)) as [->|Hne'].
    + destruct (decide (k' = k)); [congruence | done].
    + exact IH.
Qed.

Lemma dict_get_filter_ne (d : pydict) (k k' : string) :
  dict_get k (filter (fun kv => kv.1 ≠ k') d) =
    if decide (k = k') then None else dict_get k d.
Proof.
  induction d as [|[k0 v0] d IH]; simpl; [by case_decide |].
  rewrite filter_cons. simpl.
  destruct (decide (k0 ≠ k')) as [Hne|Heq]; simpl.
  - destruct (decide (k0 = k)) as [->|Hk]; [by rewrite decide_False | exact IH].
  - apply dec_stable in Heq. subst k0. rewrite IH.
    destruct (decide (k = k')) as [->|Hk]; [done |].
    by rewrite decide_False.
Qed.

Lemma dict_get_Task_dict (task : Task.t) (k : string) :
  dict_get k (Task_dict task) = Task_attr task k.
Proof.
  unfold Task_dict, Task_attr. rewrite !dict_get_app, !dict_get_opt_item. simpl.
  repeat match goal with
  | |- context [decide (?key = k)] =>
      destruct (decide (key = k)) as [<-|?];
        [simpl; try reflexivity;
         match goal with |- context [_ <$> ?o] => by destruct o end |];
      rewrite (decide_False (P := k = key)) by congruence
  end.
  reflexivity.
Qed.

Lemma result_bind_Ok {A B : Type} (f : A → result B) (r : result A) (b : B) :
  r ≫= f = Ok b ↔ ∃ a, r = Ok a ∧ f a = Ok b.
Proof.
  destruct r as [a|e]; simpl; split.
  - eauto.
  - by intros (a' & [= <-] & H).
  - done.
  - by intros (a' & [=] & _).
Qed.

Lemma field_str_Ok a k o : field_str a k = Ok o ↔ a !! k = VStr <$> o.
Proof.
  unfold field_str. destruct (a !! k) as [[]|], o; simpl; split; intros; simplify_eq; done.
Qed.
Lemma field_int_Ok a k o : field_int a k = Ok o ↔ a !! k = VInt <$> o.
Proof.
  unfold field_int. destruct (a !! k) as [[]|], o; simpl; split; intros; simplify_eq; done.
Qed.
Lemma field_float_Ok a k o : field_float a k = Ok o ↔ a !! k = VFloat <$> o.
Proof.
  unfold field_float. destruct (a !! k) as [[]|], o; simpl; split; intros; simplify_eq; done.
Qed.
Lemma field_bool_Ok a k o : field_bool a k = Ok o ↔ a !! k = VBool <$> o.
Proof.
  unfold field_bool. destruct (a !! k) as [[]|], o; simpl; split; intros; simplify_eq; done.
Qed.
Lemma field_time_Ok a k o : field_time a k = Ok o ↔ a !! k = VTime <$> o.
Proof.
  unfold field_time. destruct (a !! k) as [[]|], o; simpl; split; intros; simplify_eq; done.
Qed.
Lemma field_strs_Ok a k o : field_strs a k = Ok o ↔ a !! k = VStrs <$> o.
Proof.
  unfold field_strs. destruct (a !! k) as [[]|], o; simpl; split; intros; simplify_eq; done.
Qed.
Lemma field_logs_Ok a k o : field_logs a k = Ok o ↔ a !! k = VLogs <$> o.
Proof.
  unfold field_logs. destruct (a !! k) as [[]|], o; simpl; split; intros; simplify_eq; done.
Qed.

Lemma required_Ok {A : Type} (r : result (option A)) (x : A) :
  required r = Ok x ↔ r = Ok (Some x).
Proof.
  unfold required. destruct r as [[y|]|e]; simpl; split; intros; simplify_eq; done.
Qed.

Lemma Task_init_Ok (a : attrs) (task : Task.t) :
  Task_init a = Ok task ↔ ∀ k, k ∈ Task_keys → a !! k = Task_attr task k.
Proof.
  unfold Task_init. split.
  - intros H.
    repeat (apply result_bind_Ok in H as (? & ? & H)).
    injection H as <-.
    repeat match goal with
    | H : required _ = Ok _ |- _ => apply required_Ok in H
    end.
    repeat match goal with
    | H : field_str _ _ = Ok _ |- _ => apply field_str_Ok in H
    | H : field_int _ _ = Ok _ |- _ => apply field_int_Ok in H
    | H : field_float _ _ = Ok _ |- _ => apply field_float_Ok in H
    | H : field_bool _ _ = Ok _ |- _ => apply field_bool_Ok in H
    | H : field_time _ _ = Ok _ |- _ => apply field_time_Ok in H
    | H : field_strs _ _ = Ok _ |- _ => apply field_strs_Ok in H
    | H : field_logs _ _ = Ok _ |- _ => apply field_logs_Ok in H
    end.
    intros k Hk. unfold Task_keys in Hk.
    repeat (apply elem_of_cons in Hk as [->|Hk]; [assumption |]).
    by apply elem_of_nil in Hk.
  - intros H.
    rewrite (proj2 (required_Ok _ _) (proj2 (field_str_Ok a "user_id" (Some _))
               (H "user_id" ltac:(by repeat constructor)))).
    rewrite (proj2 (required_Ok _ _) (proj2 (field_int_Ok a "task_id" (Some _))
               (H "task_id" ltac:(by repeat constructor)))).
    rewrite (proj2 (required_Ok _ _) (proj2 (field_str_Ok a "name" (Some _))
               (H "name" ltac:(by repeat constructor)))).
    rewrite (proj2 (required_Ok _ _) (proj2 (field_float_Ok a "importance" (Some _))
               (H "importance" ltac:(by repeat constructor)))).
    rewrite (proj2 (field_bool_Ok a "completed" _) (H "completed" ltac:(by repeat constructor))).
    rewrite (proj2 (field_time_Ok a "due" _) (H "due" ltac:(by repeat constructor))).
    rewrite (proj2 (field_strs_Ok a "tags" _) (H "tags" ltac:(by repeat constructor))).
    rewrite (proj2 (field_strs_Ok a "urls" _) (H "urls" ltac:(by repeat constructor))).
    rewrite (proj2 (field_strs_Ok a "users" _) (H "users" ltac:(by repeat constructor))).
    rewrite (proj2 (field_strs_Ok a "notes" _) (H "notes" ltac:(by repeat constructor))).
    rewrite (proj2 (field_logs_Ok a "time_logs" _) (H "time_logs" ltac:(by repeat constructor))).
    by destruct task.
Qed.

Lemma Task_keys_elem (k : string) :
  k ∈ Task_keys → k ≠ "kind".
Proof.
  unfold Task_keys. intros Hk ->.
  repeat (apply elem_of_cons in Hk as [?|Hk]; [discriminate |]).
  by apply elem_of_nil in Hk.
Qed.

(** A freshly serialised task reads back as itself. *)
Lemma Task_init_dict (task : Task.t) (d : pydict) :
  (∀ k, k ∈ Task_keys → dict_get k d = Task_attr task k) →
  Task_init (list_to_map d) = Ok task.
Proof.
  intros H. apply Task_init_Ok. intros k Hk. rewrite lookup_pydict. by apply H.
Qed.

Lemma Task_attr_merge (task old : Task.t) (k : string) :
  k ∈ Task_keys →
  Task_attr (Task_merge task old) k =
    match Task_attr task k with Some v => Some v | None => Task_attr old k end.
Proof.
  unfold Task_keys. intros Hk.
  repeat (apply elem_of_cons in Hk as [->|Hk];
    [unfold Task_attr, Task_merge; simpl;
     try reflexivity;
     match goal with |- context [_ <$> (?o ∪ ?o')] => by destruct o, o' end |]).
  by apply elem_of_nil in Hk.
Qed.

(** Attributes merged into an existing task's node read back as the merge. *)
Lemma Task_init_union (task old : Task.t) (a : attrs) :
  Task_init a = Ok old →
  Task_init (list_to_map (("kind", VStr "task") :: Task_dict task) ∪ a)
    = Ok (Task_merge task old).
Proof.
  intros Hold. apply Task_init_Ok. intros k Hk.
  rewrite lookup_union, lookup_pydict.
  rewrite dict_get_cons_ne by (intros E; by apply (Task_keys_elem k Hk)).
  rewrite dict_get_Task_dict, Task_attr_merge by done.
  rewrite (proj1 (Task_init_Ok a old) Hold k Hk).
  by destruct (Task_attr task k), (Task_attr old k).
Qed.

Lemma Task_init_fresh (task : Task.t) :
  Task_init (list_to_map (("kind", VStr "task") :: Task_dict task) ∪ ∅) = Ok task.
Proof.
  rewrite (right_id_L ∅ (∪)). apply Task_init_dict. intros k Hk.
  rewrite dict_get_cons_ne by (intros E; by apply (Task_keys_elem k Hk)).
  apply dict_get_Task_dict.
Qed.

Lemma get_time_logs_Task_dict (task : Task.t) :
  get_time_logs (Task_dict task) = default [] (Task.time_logs task).
Proof.
  unfold get_time_logs. rewrite dict_get_Task_dict.
  unfold Task_attr; simpl. by destruct (Task.time_logs task).
Qed.

(** ** Sequencing *)

Lemma M_bind_eq {A B : Type} (m : M A) (f : A → M B) (g : graph) :
  (m ≫= f) g =
    match m g with
    | (g', Ok a) => f a g'
    | (g', Raise e) => (g', Raise e)
    end.
Proof. reflexivity. Qed.


Lemma M_bind_ret {A B : Type} (m : M A) (f : A → M B) (g g' : graph) (a : A) :
  m g = (g', Ok a) → (m ≫= f) g = f a g'.
Proof. intros H. by rewrite M_bind_eq, H. Qed.

Lemma M_bind_raise {A B : Type} (m : M A) (f : A → M B) (g g' : graph) (e : exn) :
  m g = (g', Raise e) → (m ≫= f) g = (g', Raise e).
Proof. intros H. by rewrite M_bind_eq, H. Qed.

(** ** create_task *)

Lemma Task_attr_Some (task : Task.t) (k : string) (v : value) :
  Task_attr task k = Some v → k ∈ Task_keys.
Proof.
  unfold Task_attr, Task_keys. intros H.
  repeat match type of H with
  | (if decide (k = ?key) then _ else _) = _ =>
      destruct (decide (k = key)) as [->|?]; [by repeat constructor |]
  end.
  done.
Qed.

Lemma opt_item_keys (k : string) (o : option value) :
  (opt_item k o).*1 `sublist_of` [k].
Proof. destruct o; simpl; [done | by apply sublist_nil_l]. Qed.

Lemma Task_dict_keys (task : Task.t) : (Task_dict task).*1 `sublist_of` Task_keys.
Proof.
  unfold Task_dict. rewrite !fmap_app.
  change Task_keys with
    (["user_id"; "task_id"; "name"; "importance"] ++ ["completed"] ++ ["due"]
       ++ ["tags"] ++ ["urls"] ++ ["users"] ++ ["notes"] ++ ["time_logs"]).
  repeat (apply sublist_app; [first [done | apply opt_item_keys] |]).
  apply opt_item_keys.
Qed.

Lemma Task_keys_NoDup : NoDup Task_keys.
Proof. apply (bool_decide_unpack (NoDup Task_keys)). by vm_compute. Qed.

Lemma dict_get_None (d : pydict) (k : string) :
  k ∉ d.*1 → dict_get k d = None.
Proof.
  induction d as [|[k0 v0] d IH]; simpl; [done |].
  intros Hk. apply not_elem_of_cons in Hk as [Hne Hk].
  rewrite decide_False by done. by apply IH.
Qed.

Lemma lookup_foldl_insert (d : pydict) (a : attrs) (k : string) :
  NoDup d.*1 →
  foldl (fun m kv => <[kv.1 := kv.2]> m) a d !! k =
    match dict_get k d with Some v => Some v | None => a !! k end.
Proof.
  revert a. induction d as [|[k0 v0] d IH]; intros a Hnd; simpl; [done |].
  apply NoDup_cons in Hnd as [Hk0 Hnd]. rewrite IH by done.
  destruct (decide (k0 = k)) as [->|Hne].
  - rewrite dict_get_None by done. apply lookup_insert_eq.
  - by rewrite lookup_insert_ne.
Qed.

Lemma for_items_setattr (d : pydict) (n : Z) (g : graph) (a : attrs) :
  g !! n = Some a →
  for_items d (node_setattr n) g =
    (<[n := foldl (fun m kv => <[kv.1 := kv.2]> m) a d]> g, Ok tt).
Proof.
  revert g a. induction d as [|[k v] d IH]; intros g a Hg; simpl.
  - by rewrite insert_id.
  - rewrite M_bind_eq. unfold node_setattr at 1. rewrite Hg.
    rewrite (IH _ (<[k := v]> a)) by apply lookup_insert_eq.
    by rewrite insert_insert_eq.
Qed.

Lemma Task_dict_NoDup (task : Task.t) : NoDup (Task_dict task).*1.
Proof. eapply sublist_NoDup; [apply Task_keys_NoDup | apply Task_dict_keys]. Qed.

(** The branch that adds a node: a negative id, or any other name than the
    patch name. *)
Lemma create_task_add (g : graph) (task : Task.t) :
  Task.task_id task < 0 ∨ Task.name task ≠ "_existing_node" →
  create_task task g =
    let n := if Task.task_id task <? 0 then Z.of_nat (size g) else Task.task_id task in
    (<[n := list_to_map (("kind", VStr "task") :: Task_dict (Task.set_task_id n task))
              ∪ default ∅ (g !! n)]> g,
     Ok n).
Proof.
  intros Hmode. unfold create_task.
  destruct (Task.task_id task <? 0) eqn:Hneg; [done |].
  destruct Hmode as [Hlt|Hname]; [apply Z.ltb_ge in Hneg; lia |].
  by rewrite decide_False.
Qed.

(** The branch that patches an existing node. *)
Lemma create_task_patch (g : graph) (task : Task.t) (a : attrs) :
  0 ≤ Task.task_id task →
  Task.name task = "_existing_node" →
  g !! Task.task_id task = Some a →
  create_task task g =
    (<[Task.task_id task :=
         foldl (fun m kv => <[kv.1 := kv.2]> m) a
           (filter (fun kv => kv.1 ≠ "name") (Task_dict task))]> g,
     Ok (Task.task_id task)).
Proof.
  intros Hid Hname Hg. unfold create_task.
  rewrite (proj2 (Z.ltb_ge _ _)) by lia.
  rewrite decide_True by done.
  rewrite M_bind_eq. unfold lift, dict_del.
  rewrite dict_get_Task_dict. change (Task_attr task "name") with (Some (VStr (Task.name task))).
  cbv beta iota. rewrite M_bind_eq.
  by rewrite (for_items_setattr _ _ _ a Hg).
Qed.

Lemma patch_items_NoDup (task : Task.t) :
  NoDup (filter (fun kv : string * value => kv.1 ≠ "name") (Task_dict task)).*1.
Proof.
  eapply sublist_NoDup; [apply Task_dict_NoDup |].
  apply fmap_sublist, sublist_filter.
Qed.

(** C6: for a node that exists under a (non-negative) id and a task that
    names that id and is called ["_existing_node"], [create_task] returns the
    id and changes that node's attribute mapping only: every explicitly set
    field of the task but [name] is now the node's attribute of that key, and
    every other attribute, [name] included, is what it was. *)
Theorem create_task_existing_node (g : graph) (task_id : Z) (task : Task.t)
    (a : attrs) :
  g !! task_id = Some a →
  Task.task_id task = task_id →
  0 ≤ task_id →
  Task.name task = "_existing_node" →
  ∃ a', create_task task g = (<[task_id := a']> g, Ok task_id) ∧
        ∀ k, a' !! k =
               if decide (k = "name") then a !! k
               else match dict_get k (Task_dict task) with
                    | Some v => Some v
                    | None => a !! k
                    end.
Proof.
  intros Hg <- Hid Hname. eexists. split.
  - by apply create_task_patch.
  - intros k. rewrite lookup_foldl_insert by apply patch_items_NoDup.
    rewrite dict_get_filter_ne. by case_decide.
Qed.

Lemma graph0_eq : graph0 = {[0 := attrs0]}.
Proof. vm_compute. reflexivity. Defined.

Lemma create_task_existing_node_witness :
  ∃ a', create_task patch_task graph0 = (<[0 := a']> graph0, Ok 0) ∧
        ∀ k, a' !! k =
               if decide (k = "name") then attrs0 !! k
               else match dict_get k (Task_dict patch_task) with
                    | Some v => Some v
                    | None => attrs0 !! k
                    end.
Proof.
  refine (create_task_existing_node graph0 0 patch_task attrs0 _ eq_refl _ eq_refl).
  - rewrite graph0_eq. apply lookup_singleton_eq.
  - lia.
Defined.

(** A patch for a node that is not there. *)
Lemma create_task_patch_missing (g : graph) (task : Task.t) :
  0 ≤ Task.task_id task →
  Task.name task = "_existing_node" →
  g !! Task.task_id task = None →
  create_task task g = (g, Raise KeyError).
Proof.
  intros Hid Hname Hg. unfold create_task.
  rewrite (proj2 (Z.ltb_ge _ _)) by lia.
  rewrite decide_True by done.
  rewrite M_bind_eq. unfold lift, dict_del.
  rewrite dict_get_Task_dict. change (Task_attr task "name") with (Some (VStr (Task.name task))).
  cbv beta iota. rewrite M_bind_eq.
  unfold Task_dict. cbn [app]. rewrite filter_cons_True by done.
  cbn [for_items]. rewrite M_bind_eq. unfold node_setattr at 1. by rewrite Hg.
Qed.

Lemma patch_lookup (task : Task.t) (a : attrs) (k : string) :
  foldl (fun m kv => <[kv.1 := kv.2]> m) a
    (filter (fun kv : string * value => kv.1 ≠ "name") (Task_dict task)) !! k =
  if decide (k = "name") then a !! k
  else match Task_attr task k with Some v => Some v | None => a !! k end.
Proof.
  rewrite lookup_foldl_insert by apply patch_items_NoDup.
  rewrite dict_get_filter_ne, dict_get_Task_dict. by case_decide.
Qed.

Lemma Task_init_kind (task : Task.t) :
  Task_init (list_to_map (("kind", VStr "task") :: Task_dict task)) = Ok task.
Proof.
  apply Task_init_dict. intros k Hk.
  rewrite dict_get_cons_ne by (intros E; by apply (Task_keys_elem k Hk)).
  apply dict_get_Task_dict.
Qed.

(** The first task of a graph, created under an assigned or a chosen id. *)
Lemma stored_created (task : Task.t) :
  Task.task_id task < 0 ∨ Task.name task ≠ "_existing_node" →
  let n := if Task.task_id task <? 0 then 0 else Task.task_id task in
  stored (create_task task ∅).1 n (Task.set_task_id n task) ∧
  size (create_task task ∅).1 = 1%nat.
Proof.
  intros Hmode n. rewrite (create_task_add _ _ Hmode). cbv zeta. cbn [fst].
  rewrite map_size_empty. change (Z.of_nat 0) with 0. fold n.
  rewrite lookup_empty. cbn [default]. split.
  - eexists. split; [apply lookup_insert_eq | apply Task_init_fresh].
  - rewrite map_size_insert_None by apply lookup_empty. by rewrite map_size_empty.
Qed.

Lemma lookup_created (task : Task.t) (m : Z) :
  Task.task_id task < 0 ∨ Task.name task ≠ "_existing_node" →
  m ≠ (if Task.task_id task <? 0 then 0 else Task.task_id task) →
  (create_task task ∅).1 !! m = None.
Proof.
  intros Hmode Hm. rewrite (create_task_add _ _ Hmode). cbv zeta. cbn [fst].
  rewrite map_size_empty. change (Z.of_nat 0) with 0.
  rewrite lookup_insert_ne by done. apply lookup_empty.
Qed.

Lemma stored_graph4 : stored graph4 (Z.of_nat (size graph4)) placed_task.
Proof.
  assert (Hmode : Task.task_id placed_task < 0 ∨ Task.name placed_task ≠ "_existing_node")
    by (right; discriminate).
  destruct (stored_created placed_task Hmode) as [Hst Hsz].
  unfold graph4. rewrite Hsz. exact Hst.
Qed.

(** ** The adapter: reading and writing a task *)

Lemma get_task_from_graph_eq (task_id : Z) (g : graph) :
  get_task_from_graph task_id g =
    (g, match g !! task_id with
        | Some _ => Raise TypeError
        | None => Raise KeyError
        end).
Proof.
  unfold get_task_from_graph, nodes_getitem, lift, Task_call, mbind, M_bind.
  by destruct (g !! task_id).
Qed.

(** An operation that starts by reading the task ends there. *)
Lemma read_first {B : Type} (f : Task.t → M B) (task_id : Z) (g : graph) :
  (get_task_from_graph task_id ≫= f) g =
    (g, match g !! task_id with
        | Some _ => Raise TypeError
        | None => Raise KeyError
        end).
Proof. rewrite M_bind_eq, get_task_from_graph_eq. by destruct (g !! task_id). Qed.

Lemma read_first_node {B : Type} (f : Task.t → M B) (task_id : Z) (g : graph) :
  is_Some (g !! task_id) →
  (get_task_from_graph task_id ≫= f) g = (g, Raise TypeError).
Proof. intros [a Ha]. by rewrite read_first, Ha. Qed.

Lemma read_first_absent {B : Type} (f : Task.t → M B) (task_id : Z) (g : graph) :
  g !! task_id = None →
  (get_task_from_graph task_id ≫= f) g = (g, Raise KeyError).
Proof. intros Ha. by rewrite read_first, Ha. Qed.

Lemma stored_node (g : graph) (task_id : Z) (task : Task.t) :
  stored g task_id task → is_Some (g !! task_id).
Proof. intros (a & Ha & _). eauto. Qed.

(** The node's mapping given to the constructor as keyword arguments, as
    [list_tasks] does. *)
Lemma read_node_stored (g : graph) (n : Z) (task : Task.t) :
  stored g n task ↔
  (nodes_getitem n ≫= fun a => lift (Task_init a)) g = (g, Ok task).
Proof.
  rewrite M_bind_eq. unfold nodes_getitem, lift, stored. split.
  - intros (a & -> & ->). done.
  - destruct (g !! n) as [a|]; [| done]. intros [= H]. eauto.
Qed.

(** ** Sample graphs *)

Lemma stored_graph0 : stored graph0 0 task0.
Proof. exact (proj1 (stored_created new_task (or_introl eq_refl))). Qed.

Lemma stored_graph1 : stored graph1 0 task1.
Proof. exact (proj1 (stored_created full_task (or_introl eq_refl))). Qed.

Lemma stored_graph_done : stored graph_done 0 (Task.set_task_id 0 done_task).
Proof. exact (proj1 (stored_created done_task (or_introl eq_refl))). Qed.

(** ** complete_task *)

(** C1, where the code departs from it: on a stored task whose [completed]
    field is true, [complete_task] does not return the task.  It raises
    [TypeError] where it reads the task (the node's mapping is passed to the
    constructor as a positional argument), before [completed] is looked at.
    Nothing is written, so the graph after a second call, with any end time,
    is the graph after the first, which is the graph before it. *)
Theorem complete_task_completed_raises (g : graph) (task_id : Z) (task : Task.t)
    (end_time end_time' : option datetime) (now now' : datetime) :
  stored g task_id task →
  Task.completed task = Some true →
  complete_task task_id end_time now g = (g, Raise TypeError) ∧
  complete_task task_id end_time' now' (complete_task task_id end_time now g).1
    = (g, Raise TypeError).
Proof.
  intros Hst%stored_node _.
  assert (H : ∀ e n, complete_task task_id e n g = (g, Raise TypeError))
    by (intros; by apply read_first_node).
  by rewrite !H.
Qed.

Lemma complete_task_completed_raises_witness :
  complete_task 0 (Some 7) 1 graph_done = (graph_done, Raise TypeError) ∧
  complete_task 0 (Some 9) 2 (complete_task 0 (Some 7) 1 graph_done).1
    = (graph_done, Raise TypeError).
Proof.
  exact (complete_task_completed_raises graph_done 0 (Task.set_task_id 0 done_task)
           (Some 7) (Some 9) 1 2 stored_graph_done eq_refl).
Defined.

(** C2, where the code departs from it: on a stored task that is not
    completed, [complete_task] raises [TypeError] where it reads the task,
    whatever its log list is.  [completed] is not set and no log is closed
    or added: the node holds the task it held.  The log that the branch for
    an empty list builds could not be built either: [TimeLog] is called with
    [note=None], and its [note] field is a required [str]. *)
Theorem complete_task_open_raises (g : graph) (task_id : Z) (task : Task.t)
    (end_time : option datetime) (now : datetime) :
  stored g task_id task →
  truthy (Task.completed task) = false →
  complete_task task_id end_time now g = (g, Raise TypeError) ∧
  stored (complete_task task_id end_time now g).1 task_id task ∧
  TimeLog_init (Task.task_id task) (Task.user_id task) None
    (Some (default now end_time)) None = Raise ValidationError.
Proof.
  intros Hst _.
  assert (H : complete_task task_id end_time now g = (g, Raise TypeError))
    by (by apply read_first_node, (stored_node g task_id task)).
  by rewrite H.
Qed.

Lemma complete_task_open_raises_witness :
  complete_task 0 (Some 7) 1 graph1 = (graph1, Raise TypeError) ∧
  stored (complete_task 0 (Some 7) 1 graph1).1 0 task1 ∧
  TimeLog_init (Task.task_id task1) (Task.user_id task1) None
    (Some (default 1 (Some 7))) None = Raise ValidationError.
Proof.
  exact (complete_task_open_raises graph1 0 task1 (Some 7) 1 stored_graph1 eq_refl).
Defined.

(** C4, where the code departs from it: for an id that is not in the graph,
    [update_task] returns [None] without raising and leaves the graph as it
    was, but [complete_task] raises [KeyError] (the graph is left as it was
    there too). *)
Theorem absent_id_update_complete (g : graph) (task_id : Z)
    (user_id name : option string) (completed : option bool)
    (importance : option float) (due end_time : option datetime)
    (now : datetime) :
  g !! task_id = None →
  update_task task_id user_id name completed importance due g = (g, Ok None) ∧
  complete_task task_id end_time now g = (g, Raise KeyError).
Proof.
  intros Habs. split.
  - unfold update_task. rewrite M_bind_eq. unfold nodes_contains.
    rewrite bool_decide_false; [done |].
    rewrite Habs. apply is_Some_None.
  - unfold complete_task. rewrite M_bind_eq, get_task_from_graph_eq, Habs. done.
Qed.

Lemma absent_id_update_complete_witness :
  update_task 0 None (Some "x") None None None ∅ = (∅, Ok None) ∧
  complete_task 0 None 1 ∅ = (∅, Raise KeyError).
Proof.
  exact (absent_id_update_complete ∅ 0 None (Some "x") None None None None 1
           (lookup_empty 0)).
Defined.

(** ** create_task, then read *)

Lemma create_task_node (g g' : graph) (task : Task.t) (id : Z) :
  create_task task g = (g', Ok id) → is_Some (g' !! id).
Proof.
  destruct (decide (Task.task_id task < 0 ∨ Task.name task ≠ "_existing_node"))
    as [Hmode|Hpatch].
  - rewrite (create_task_add _ _ Hmode). cbv zeta. intros [= <- <-].
    rewrite lookup_insert_eq. eauto.
  - assert (Hid : 0 ≤ Task.task_id task) by (destruct (decide (0 ≤ Task.task_id task)); [done | exfalso; apply Hpatch; left; lia]).
    assert (Hname : Task.name task = "_existing_node")
      by (destruct (decide (Task.name task = "_existing_node")); [done | exfalso; apply Hpatch; by right]).
    destruct (g !! Task.task_id task) as [a|] eqn:Hn.
    + rewrite (create_task_patch _ _ a) by done. intros [= <- <-].
      rewrite lookup_insert_eq. eauto.
    + by rewrite create_task_patch_missing.
Qed.

(** C3, where the code departs from it: whatever task [create_task] was
    given, when it returns an id, reading that id back with
    [get_task_from_graph] does not give a task: the node is there, and the
    read raises [TypeError] (the node's mapping is passed to the constructor
    as a positional argument).  The graph is left as [create_task] left
    it. *)
Theorem create_task_then_get_raises (g g' : graph) (task : Task.t) (id : Z) :
  create_task task g = (g', Ok id) →
  is_Some (g' !! id) ∧
  get_task_from_graph id g' = (g', Raise TypeError).
Proof.
  intros [a Ha]%create_task_node. split; [eauto |].
  by rewrite get_task_from_graph_eq, Ha.
Qed.

Lemma create_task_then_get_raises_witness :
  is_Some (graph0 !! 0) ∧
  get_task_from_graph 0 graph0 = (graph0, Raise TypeError).
Proof.
  apply (create_task_then_get_raises ∅ graph0 new_task 0).
  rewrite (create_task_add ∅ new_task (or_introl eq_refl)). reflexivity.
Defined.

(** ** Tags, urls and users *)

(** C10: on a stored task whose [tags] field is absent, [add_tag] and
    [remove_tag] raise ([TypeError]) and the graph is the one they were
    given, so nothing was written and the absent field was not taken for an
    empty set; the same holds for [add_url]/[remove_url] when [urls] is
    absent and for [add_user]/[remove_user] when [users] is.  ([set(None)]
    is itself a [TypeError].) *)
Theorem absent_set_field_raises (g : graph) (task_id : Z) (task : Task.t)
    (v : string) :
  stored g task_id task →
  (Task.tags task = None →
     add_tag task_id v g = (g, Raise TypeError) ∧
     remove_tag task_id v g = (g, Raise TypeError)) ∧
  (Task.urls task = None →
     add_url task_id v g = (g, Raise TypeError) ∧
     remove_url task_id v g = (g, Raise TypeError)) ∧
  (Task.users task = None →
     add_user task_id v g = (g, Raise TypeError) ∧
     remove_user task_id v g = (g, Raise TypeError)) ∧
  pyset None = Raise TypeError.
Proof.
  intros Hst%stored_node.
  repeat split; try (intros _); try reflexivity; by apply read_first_node.
Qed.

Lemma absent_set_field_raises_witness :
  add_tag 0 "urgent" graph0 = (graph0, Raise TypeError) ∧
  remove_tag 0 "urgent" graph0 = (graph0, Raise TypeError).
Proof.
  exact (proj1 (absent_set_field_raises graph0 0 task0 "urgent" stored_graph0)
           eq_refl).
Defined.

(** C5, where the code departs from it: on a stored task, [remove_tag],
    [remove_url] and [remove_user] raise [TypeError] where they read the
    task, for every value, one that is on the stored list included; nothing
    is removed and the graph is left as it was.  [remove_user] has a second
    slip after the read: it removes [users], the set, from itself, which is
    a [KeyError] for every set. *)
Theorem remove_operations_raise (g : graph) (task_id : Z) (task : Task.t)
    (v : string) :
  stored g task_id task →
  remove_tag task_id v g = (g, Raise TypeError) ∧
  remove_url task_id v g = (g, Raise TypeError) ∧
  remove_user task_id v g = (g, Raise TypeError) ∧
  ∀ users, set_remove (PSet users) users = Raise KeyError.
Proof.
  intros Hst%stored_node.
  repeat split; try reflexivity; by apply read_first_node.
Qed.

Lemma remove_operations_raise_witness :
  "bob" ∈ ["bob"] ∧
  remove_tag 0 "bob" graph1 = (graph1, Raise TypeError) ∧
  remove_url 0 "bob" graph1 = (graph1, Raise TypeError) ∧
  remove_user 0 "bob" graph1 = (graph1, Raise TypeError) ∧
  ∀ users, set_remove (PSet users) users = Raise KeyError.
Proof.
  split; [by repeat constructor |].
  exact (remove_operations_raise graph1 0 task1 "bob" stored_graph1).
Defined.

(** ** Notes *)

(** C9, where the code departs from it: on a stored task with a notes
    list, [update_note] and [remove_note] raise [TypeError] where they read
    the task, for every index, one inside the list included: no note is
    overwritten or removed, and the graph is left as it was. *)
Theorem note_operations_raise (g : graph) (task_id : Z) (task : Task.t)
    (notes : list string) (note_id : Z) (note : string) :
  stored g task_id task →
  Task.notes task = Some notes →
  update_note task_id note_id note g = (g, Raise TypeError) ∧
  remove_note task_id note_id g = (g, Raise TypeError).
Proof.
  intros Hst%stored_node _. split; by apply read_first_node.
Qed.

Lemma note_operations_raise_witness :
  0 ≤ 0 < Z.of_nat (length ["a"; "b"]) ∧
  update_note 0 0 "first" graph1 = (graph1, Raise TypeError) ∧
  remove_note 0 0 graph1 = (graph1, Raise TypeError).
Proof.
  split; [simpl; lia |].
  exact (note_operations_raise graph1 0 task1 ["a"; "b"] 0 "first"
           stored_graph1 eq_refl).
Defined.

(** ** list_tasks *)


Lemma intersects_eq (key : string) (wanted : gset string) (n : Z) (g : graph) :
  intersects key wanted n g =
    (g, match g !! n with
        | None => Raise KeyError
        | Some a =>
            match set_of_value (default (VStrs []) (a !! key)) with
            | Ok s => Ok (bool_decide (size (s ∩ wanted) ≠ 0%nat))
            | Raise e => Raise e
            end
        end).
Proof.
  unfold intersects, nodes_getitem. rewrite M_bind_eq.
  destruct (g !! n) as [a|]; [| done].
  rewrite M_bind_eq. unfold lift.
  by destruct (set_of_value _).
Qed.






Section ListingFacts.
Variable sort_nodes : graph → string → Z → bool → bool → result (list Z).
Variable Pattern : Type.
Variable re_compile : string → result Pattern.

Lemma name_matches_eq (pattern : Pattern) (n : Z) (g : graph) :
  name_matches Pattern pattern n g =
    (g, match g !! n with Some _ => Raise TypeError | None => Raise KeyError end).
Proof.
  unfold name_matches, nodes_getitem. rewrite M_bind_eq.
  by destruct (g !! n).
Qed.




(** C8, where the code departs from it: with a search text given and a
    first candidate that is a node of the graph, [list_tasks] raises
    [TypeError] (the compiled pattern is called as if it were a function);
    no candidate is kept or dropped by its name. *)
Theorem list_tasks_search_raises (g : graph) (sort_by : string) (limit : Z)
    (ascending only_leaves : bool) (search : string)
    (tags urls users : option (list string))
    (n : Z) (ids : list Z) (a : attrs) (pattern : Pattern) :
  search ≠ "" →
  re_compile search = Ok pattern →
  sort_nodes g sort_by limit ascending only_leaves = Ok (n :: ids) →
  g !! n = Some a →
  list_tasks sort_nodes Pattern re_compile sort_by limit ascending only_leaves
    (Some search) tags urls users g = (g, Raise TypeError).
Proof.
  intros Hne Hp Hsort Hn. unfold list_tasks.
  rewrite M_bind_eq, Hsort. rewrite M_bind_eq.
  assert (given_str (Some search) = true) as ->.
  { simpl. apply bool_decide_eq_true. by destruct search. }
  rewrite M_bind_eq. unfold lift at 1. simpl default. rewrite Hp.
  simpl filterM. rewrite M_bind_eq, name_matches_eq, Hn. done.
Qed.
End ListingFacts.


Lemma list_tasks_search_raises_witness :
  list_tasks sample_sort string sample_compile "importance" 10 false false
    (Some "b") None None None graph2 = (graph2, Raise TypeError).
Proof.
  apply (list_tasks_search_raises sample_sort string sample_compile graph2
           "importance" 10 false false "b" None None None 1 [0] attrs_other "b").
  - discriminate.
  - reflexivity.
  - vm_compute. reflexivity.
  - vm_compute. reflexivity.
Defined.

(** * Further properties of the operations *)

(** ** What the single-task operations do *)

(** X1: [update_task_in_graph] never writes.  For a task with a log in its
    list it raises [AttributeError] (the entries of [task_spec["time_logs"]]
    are plain dicts, and [dict] is called on them); for every other task it
    raises [TypeError] at the assignment to the node view.  The graph is the
    one it was given. *)
Theorem update_task_in_graph_raises (task : Task.t) (g : graph) :
  update_task_in_graph task g =
    (g, match Task.time_logs task with
        | Some (_ :: _) => Raise AttributeError
        | _ => Raise TypeError
        end).
Proof.
  unfold update_task_in_graph. cbv zeta. rewrite M_bind_eq. unfold lift.
  rewrite get_time_logs_Task_dict.
  by destruct (Task.time_logs task) as [[|l logs]|].
Qed.

(** X2: [get_task_from_graph] never returns a task and never changes the
    graph: it raises [KeyError] exactly when the id is no node, and
    [TypeError] exactly when it is one. *)
Theorem get_task_from_graph_outcomes (task_id : Z) (g : graph) :
  (get_task_from_graph task_id g).1 = g ∧
  (∀ task, (get_task_from_graph task_id g).2 ≠ Ok task) ∧
  ((get_task_from_graph task_id g).2 = Raise KeyError ↔ g !! task_id = None) ∧
  ((get_task_from_graph task_id g).2 = Raise TypeError ↔ is_Some (g !! task_id)).
Proof.
  rewrite get_task_from_graph_eq. cbn [fst snd].
  destruct (g !! task_id) as [a|]; repeat split; try done; eauto.
Qed.

(** X3: on an id that is a node, [add_tag], [add_url], [add_user] and
    [add_note] raise [TypeError] where they read the task, whatever the
    node holds: nothing is added and the graph is left as it was. *)
Theorem add_operations_raise (g : graph) (task_id : Z) (v : string) :
  is_Some (g !! task_id) →
  add_tag task_id v g = (g, Raise TypeError) ∧
  add_url task_id v g = (g, Raise TypeError) ∧
  add_user task_id v g = (g, Raise TypeError) ∧
  add_note task_id v g = (g, Raise TypeError).
Proof. intros Hn. repeat split; by apply read_first_node. Qed.

Lemma add_operations_raise_witness :
  add_tag 0 "urgent" graph1 = (graph1, Raise TypeError) ∧
  add_url 0 "urgent" graph1 = (graph1, Raise TypeError) ∧
  add_user 0 "urgent" graph1 = (graph1, Raise TypeError) ∧
  add_note 0 "urgent" graph1 = (graph1, Raise TypeError).
Proof.
  exact (add_operations_raise graph1 0 "urgent" (stored_node _ _ _ stored_graph1)).
Defined.

(** X4: on an id that is no node, the operations on tags, urls, users and
    notes raise [KeyError] (in the lookup of the node), and the graph is
    left as it was; no node is created. *)
Theorem absent_id_raises (g : graph) (task_id note_id : Z) (v : string) :
  g !! task_id = None →
  add_tag task_id v g = (g, Raise KeyError) ∧
  remove_tag task_id v g = (g, Raise KeyError) ∧
  add_url task_id v g = (g, Raise KeyError) ∧
  remove_url task_id v g = (g, Raise KeyError) ∧
  add_user task_id v g = (g, Raise KeyError) ∧
  remove_user task_id v g = (g, Raise KeyError) ∧
  add_note task_id v g = (g, Raise KeyError) ∧
  update_note task_id note_id v g = (g, Raise KeyError) ∧
  remove_note task_id note_id g = (g, Raise KeyError).
Proof. intros Hn. repeat split; by apply read_first_absent. Qed.

Lemma absent_id_raises_witness :
  add_tag 3 "x" graph1 = (graph1, Raise KeyError) ∧
  remove_tag 3 "x" graph1 = (graph1, Raise KeyError) ∧
  add_url 3 "x" graph1 = (graph1, Raise KeyError) ∧
  remove_url 3 "x" graph1 = (graph1, Raise KeyError) ∧
  add_user 3 "x" graph1 = (graph1, Raise KeyError) ∧
  remove_user 3 "x" graph1 = (graph1, Raise KeyError) ∧
  add_note 3 "x" graph1 = (graph1, Raise KeyError) ∧
  update_note 3 0 "x" graph1 = (graph1, Raise KeyError) ∧
  remove_note 3 0 graph1 = (graph1, Raise KeyError).
Proof.
  refine (absent_id_raises graph1 3 0 "x" _).
  apply (lookup_created full_task 3 (or_introl eq_refl)). discriminate.
Defined.

Lemma update_task_eq (g : graph) (task_id : Z) (user_id name : option string)
    (completed : option bool) (importance : option float) (due : option datetime) :
  update_task task_id user_id name completed importance due g =
    (g, match g !! task_id with
        | Some _ => Raise TypeError
        | None => Ok None
        end).
Proof.
  unfold update_task. rewrite M_bind_eq. unfold nodes_contains.
  destruct (g !! task_id) as [a|] eqn:Hn.
  - rewrite bool_decide_true by eauto. cbv beta iota.
    rewrite read_first_node by (rewrite Hn; eauto). done.
  - rewrite bool_decide_false by (by intros [? ?]). done.
Qed.

(** X8: [update_task] never returns an updated task and never changes the
    graph, whatever fields it is given: on an id that is a node it raises
    [TypeError] where it reads the task, on any other id it returns
    [None]. *)
Theorem update_task_never_updates (g : graph) (task_id : Z)
    (user_id name : option string) (completed : option bool)
    (importance : option float) (due : option datetime) :
  (update_task task_id user_id name completed importance due g).1 = g ∧
  (∀ task, (update_task task_id user_id name completed importance due g).2
           ≠ Ok (Some task)) ∧
  (is_Some (g !! task_id) →
   (update_task task_id user_id name completed importance due g).2
     = Raise TypeError) ∧
  (g !! task_id = None →
   (update_task task_id user_id name completed importance due g).2 = Ok None).
Proof.
  rewrite update_task_eq. cbn [fst snd].
  destruct (g !! task_id) as [a|]; repeat split; try done.
Qed.

(** X19: no single-task operation changes the graph, with any arguments and
    whether it returns or raises: the graph after [get_task_from_graph],
    [update_task_in_graph], [update_task], [complete_task] and the
    operations on tags, urls, users and notes is the graph before. *)
Theorem operations_never_write (g : graph) (task_id : Z) :
  (get_task_from_graph task_id g).1 = g ∧
  (∀ task, (update_task_in_graph task g).1 = g) ∧
  (∀ user_id name completed importance due,
     (update_task task_id user_id name completed importance due g).1 = g) ∧
  (∀ end_time now, (complete_task task_id end_time now g).1 = g) ∧
  (∀ v, (add_tag task_id v g).1 = g ∧
        (remove_tag task_id v g).1 = g ∧
        (add_url task_id v g).1 = g ∧
        (remove_url task_id v g).1 = g ∧
        (add_user task_id v g).1 = g ∧
        (remove_user task_id v g).1 = g ∧
        (add_note task_id v g).1 = g) ∧
  (∀ note_id v, (update_note task_id note_id v g).1 = g) ∧
  (∀ note_id, (remove_note task_id note_id g).1 = g).
Proof.
  assert (Hread : ∀ B (f : Task.t → M B),
            ((get_task_from_graph task_id ≫= f) g).1 = g)
    by (intros; by rewrite read_first).
  split; [by rewrite get_task_from_graph_eq |].
  split.
  { intros task. unfold update_task_in_graph. cbv zeta. rewrite M_bind_eq.
    unfold lift. by destruct (comprehension _ _). }
  split; [intros; by rewrite update_task_eq |].
  split; [intros; apply Hread |].
  split; [intros v; repeat split; apply Hread |].
  split; intros; apply Hread.
Qed.

(** ** create_task: what it adds and what it leaves *)

(** X15: [create_task] has three outcomes.  With a negative id, or a name other
    than ["_existing_node"], it returns the id (the node count for a negative
    id) and that node has the task's fields laid over what it had.  With the
    name ["_existing_node"] and the id of a node, it returns the id.  With
    that name and an id that is no node, it raises [KeyError] and the graph
    is the one it was given.  It never removes a node or an attribute of a
    node, and it leaves every node but the one of the returned id as it
    was. *)
Theorem create_task_outcomes (g : graph) (task : Task.t) :
  let n := if Task.task_id task <? 0 then Z.of_nat (size g) else Task.task_id task in
  let patch := bool_decide (0 ≤ Task.task_id task ∧ Task.name task = "_existing_node") in
  (if patch && bool_decide (g !! n = None)
   then create_task task g = (g, Raise KeyError)
   else (create_task task g).2 = Ok n) ∧
  (∀ m, m ≠ n → (create_task task g).1 !! m = g !! m) ∧
  (∀ m a, g !! m = Some a →
          ∃ a', (create_task task g).1 !! m = Some a' ∧
                ∀ k, is_Some (a !! k) → is_Some (a' !! k)).
Proof.
  cbv zeta.
  destruct (bool_decide (0 ≤ Task.task_id task ∧ Task.name task = "_existing_node"))
    eqn:Hpatch.
  - apply bool_decide_eq_true in Hpatch as [Hid Hname].
    rewrite (proj2 (Z.ltb_ge _ _)) by lia. cbn [andb].
    destruct (g !! Task.task_id task) as [a|] eqn:Hg.
    + rewrite bool_decide_false by done.
      rewrite (create_task_patch _ _ a) by done. cbn [fst snd].
      split; [done |]. split; [intros m Hm; by apply lookup_insert_ne |].
      intros m a0 Hm. destruct (decide (Task.task_id task = m)) as [<-|Hne].
      * rewrite lookup_insert_eq. eexists. split; [done |].
        intros k Hk. rewrite patch_lookup. assert (a0 = a) as -> by congruence.
        case_decide; [done |]. by destruct (Task_attr task k).
      * rewrite lookup_insert_ne by done. eauto.
    + rewrite bool_decide_true by done.
      rewrite create_task_patch_missing by done. cbn [fst].
      split; [done |]. split; [done |]. eauto.
  - cbn [andb]. apply bool_decide_eq_false in Hpatch.
    assert (Hmode : Task.task_id task < 0 ∨ Task.name task ≠ "_existing_node").
    { destruct (decide (Task.task_id task < 0)); [by left |].
      right. intros Hname. apply Hpatch. split; [lia | done]. }
    rewrite (create_task_add _ _ Hmode). cbv zeta. cbn [fst snd].
    split; [done |]. split; [intros m Hm; by apply lookup_insert_ne |].
    intros m a Hm.
    set (n := if Task.task_id task <? 0 then Z.of_nat (size g) else Task.task_id task).
    destruct (decide (n = m)) as [<-|Hne].
    + rewrite lookup_insert_eq, Hm. eexists. split; [done |].
      intros k Hk. cbn [default]. apply lookup_union_is_Some. by right.
    + rewrite lookup_insert_ne by done. eauto.
Qed.

(** ** The ids [create_task] assigns *)

(** X16: in a graph whose ids are [0 .. size - 1], a task passed with a negative
    id gets the id [size], which no node has: a node is added, the graph's
    ids are again [0 .. size - 1], the other nodes are as they were, and
    the new node reads back as the task that was passed, with the id. *)
Theorem create_task_fresh_id (g : graph) (task : Task.t) :
  dense g →
  Task.task_id task < 0 →
  let n := Z.of_nat (size g) in
  ∃ g',
    create_task task g = (g', Ok n) ∧
    g !! n = None ∧
    size g' = S (size g) ∧
    dense g' ∧
    (∀ m, m ≠ n → g' !! m = g !! m) ∧
    stored g' n (Task.set_task_id n task).
Proof.
  intros Hd Hneg n.
  assert (Hn : g !! n = None).
  { apply eq_None_not_Some. intros H%Hd. unfold n in H. lia. }
  rewrite (create_task_add g task (or_introl Hneg)). cbv zeta.
  rewrite (proj2 (Z.ltb_lt _ _)) by done. fold n. rewrite Hn. cbn [default].
  eexists. split; [done |]. split; [done |].
  split; [by apply map_size_insert_None |].
  split.
  { intros m. rewrite lookup_insert_is_Some', map_size_insert_None by done.
    rewrite (Hd m). unfold n. lia. }
  split; [intros m Hm; by apply lookup_insert_ne |].
  eexists. split; [apply lookup_insert_eq | apply Task_init_fresh].
Qed.

Lemma dense_empty : dense ∅.
Proof.
  intros n. rewrite lookup_empty, map_size_empty. split; [by intros [? ?] | simpl; lia].
Defined.

Lemma create_task_fresh_id_witness :
  ∃ g',
    create_task new_task ∅ = (g', Ok (Z.of_nat (size (∅ : graph)))) ∧
    (∅ : graph) !! Z.of_nat (size (∅ : graph)) = None ∧
    size g' = S (size (∅ : graph)) ∧
    dense g' ∧
    (∀ m, m ≠ Z.of_nat (size (∅ : graph)) → g' !! m = (∅ : graph) !! m) ∧
    stored g' (Z.of_nat (size (∅ : graph)))
      (Task.set_task_id (Z.of_nat (size (∅ : graph))) new_task).
Proof.
  refine (create_task_fresh_id ∅ new_task dense_empty _). simpl; lia.
Defined.

(** X17: when the node count is itself the id of a node (the ids are not
    [0 .. size - 1], as after a task was created under an id of the
    caller's choice), a task passed with a negative id is not given a node of
    its own: it gets that node's id, no node is added, and its fields are
    laid over the task that node holds. *)
Theorem create_task_auto_id_collision (g : graph) (task old : Task.t) :
  stored g (Z.of_nat (size g)) old →
  Task.task_id task < 0 →
  let n := Z.of_nat (size g) in
  ∃ g',
    create_task task g = (g', Ok n) ∧
    size g' = size g ∧
    stored g' n (Task_merge (Task.set_task_id n task) old) ∧
    Task.name (Task_merge (Task.set_task_id n task) old) = Task.name task ∧
    (∀ m, m ≠ n → g' !! m = g !! m).
Proof.
  intros (a & Ha & Hold) Hneg n. subst n.
  rewrite (create_task_add g task (or_introl Hneg)). cbv zeta.
  rewrite (proj2 (Z.ltb_lt _ _)) by done. rewrite Ha.
  cbn [default].
  eexists. split; [done |].
  split; [apply map_size_insert_Some; by rewrite Ha |].
  split.
  { eexists. split; [apply lookup_insert_eq | by apply Task_init_union]. }
  split; [done |].
  intros m Hm. by apply lookup_insert_ne.
Qed.

Lemma create_task_auto_id_collision_witness :
  let n := Z.of_nat (size graph4) in
  ∃ g',
    create_task new_task graph4 = (g', Ok n) ∧
    size g' = size graph4 ∧
    stored g' n (Task_merge (Task.set_task_id n new_task) placed_task) ∧
    Task.name (Task_merge (Task.set_task_id n new_task) placed_task) = "write spec" ∧
    (∀ m, m ≠ n → g' !! m = graph4 !! m).
Proof.
  exact (create_task_auto_id_collision graph4 new_task placed_task
           stored_graph4 eq_refl).
Defined.

(** ** An invariant of [create_task] *)

Lemma Task_attr_set_name (task : Task.t) (s : string) (k : string) :
  k ≠ "name" → Task_attr (Task.set_name s task) k = Task_attr task k.
Proof.
  intros Hk. unfold Task_attr. repeat (case_decide; [done |]). done.
Qed.

Lemma create_task_add_consistent (g : graph) (task : Task.t) :
  Task.task_id task < 0 ∨ Task.name task ≠ "_existing_node" →
  consistent g → consistent (create_task task g).1.
Proof.
  intros Hmode Hg. rewrite (create_task_add _ _ Hmode). cbv zeta. cbn [fst].
  set (n := if Task.task_id task <? 0 then Z.of_nat (size g) else Task.task_id task).
  intros m a. destruct (decide (n = m)) as [<-|Hne].
  - rewrite lookup_insert_eq. intros Heq; apply (inj Some) in Heq; subst a.
    destruct (g !! n) as [a0|] eqn:Hn; cbn [default].
    + destruct (Hg n a0 Hn) as (old & Hold & _).
      exists (Task_merge (Task.set_task_id n task) old).
      split; [by apply Task_init_union | done].
    + exists (Task.set_task_id n task). split; [apply Task_init_fresh | done].
  - rewrite lookup_insert_ne by done. apply Hg.
Qed.

Lemma create_task_consistent (g : graph) (task : Task.t) :
  consistent g → consistent (create_task task g).1.
Proof.
  intros Hg.
  destruct (decide (Task.task_id task < 0)) as [Hneg|Hid];
    [by apply create_task_add_consistent; [left |] |].
  destruct (decide (Task.name task = "_existing_node")) as [Hname|Hname];
    [| by apply create_task_add_consistent; [right |]].
  destruct (g !! Task.task_id task) as [a|] eqn:Hn.
  - rewrite (create_task_patch _ _ a) by (done || lia). cbn [fst].
    destruct (Hg _ a Hn) as (old & Hold & Hoid).
    intros m a'. destruct (decide (Task.task_id task = m)) as [<-|Hne].
    + rewrite lookup_insert_eq. intros Heq; apply (inj Some) in Heq; subst a'.
      exists (Task.set_name (Task.name old) (Task_merge task old)).
      split; [| done].
      apply Task_init_Ok. intros k Hk. rewrite patch_lookup.
      rewrite (proj1 (Task_init_Ok a old) Hold k Hk).
      destruct (decide (k = "name")) as [->|Hk'].
      * done.
      * rewrite Task_attr_set_name, Task_attr_merge by done. done.
    + rewrite lookup_insert_ne by done. apply Hg.
  - rewrite create_task_patch_missing by (done || lia). exact Hg.
Qed.

(** X18: if every node holds a task whose [task_id] field is the node's id, then
    so it is after [create_task], whatever task it is given and whether it
    returns or raises. *)
Theorem create_task_keeps_consistent (g : graph) (task : Task.t) :
  consistent g → consistent (create_task task g).1.
Proof. apply create_task_consistent. Qed.

Lemma consistent_task_graph (g : graph) : consistent g → task_graph g.
Proof. intros Hg n a Hn. destruct (Hg n a Hn) as (task & Htask & _). eauto. Qed.

Lemma consistent_empty : consistent ∅.
Proof. intros n a H. by rewrite lookup_empty in H. Defined.

Lemma create_task_keeps_consistent_witness :
  consistent (create_task full_task ∅).1.
Proof. exact (create_task_keeps_consistent ∅ full_task consistent_empty). Defined.

(** ** list_tasks: when it returns, and when it raises *)

Lemma filterM_total {A : Type} (cond : A → M bool) (l : list A) (g : graph) :
  (∀ x, x ∈ l → ∃ b, cond x g = (g, Ok b)) →
  ∃ l', filterM cond l g = (g, Ok l') ∧ l' `sublist_of` l.
Proof.
  induction l as [|x l IH]; intros H; simpl.
  - by exists [].
  - destruct (H x) as [b Hb]; [by left |].
    destruct IH as (l' & Hl' & Hsub); [intros y Hy; apply H; by right |].
    rewrite (M_bind_ret _ _ _ _ _ Hb), (M_bind_ret _ _ _ _ _ Hl').
    exists (if b then x :: l' else l'). split; [done |].
    destruct b; [by apply sublist_skip | by apply sublist_cons].
Qed.

Lemma mapM_total {A B : Type} (f : A → M B) (l : list A) (g : graph) :
  (∀ x, x ∈ l → ∃ y, f x g = (g, Ok y)) →
  ∃ r, mapM f l g = (g, Ok r) ∧ Forall2 (fun x y => f x g = (g, Ok y)) l r.
Proof.
  induction l as [|x l IH]; intros H; simpl.
  - by exists [].
  - destruct (H x) as [y Hy]; [by left |].
    destruct IH as (r & Hr & Hall); [intros z Hz; apply H; by right |].
    rewrite (M_bind_ret _ _ _ _ _ Hy), (M_bind_ret _ _ _ _ _ Hr).
    exists (y :: r). split; [done | by constructor].
Qed.

(** On a node that holds a task, the three stored sets can be read. *)
Lemma intersects_task_node (key : string) (wanted : gset string) (n : Z)
    (g : graph) (a : attrs) (task : Task.t) :
  g !! n = Some a →
  Task_init a = Ok task →
  key ∈ ["tags"; "urls"; "users"] →
  ∃ b, intersects key wanted n g = (g, Ok b).
Proof.
  intros Hn Hinit Hkey. rewrite intersects_eq, Hn.
  assert (Hk : key ∈ Task_keys).
  { unfold Task_keys.
    repeat (apply elem_of_cons in Hkey as [->|Hkey]; [by repeat constructor |]).
    by apply elem_of_nil in Hkey. }
  rewrite (proj1 (Task_init_Ok a task) Hinit key Hk).
  repeat (apply elem_of_cons in Hkey as [->|Hkey];
    [unfold Task_attr; simpl;
     match goal with |- context [_ <$> ?o] => destruct o end; simpl; eauto |]).
  by apply elem_of_nil in Hkey.
Qed.

Lemma member_total (key : string) (wanted : option (list string))
    (ids : list Z) (g : graph) :
  task_graph g →
  (∀ n, n ∈ ids → is_Some (g !! n)) →
  key ∈ ["tags"; "urls"; "users"] →
  ∃ ids',
    (if given_list wanted
     then filterM (intersects key (list_to_set (default [] wanted))) ids
     else mret ids) g = (g, Ok ids') ∧
    ids' `sublist_of` ids ∧
    (given_list wanted = false → ids' = ids).
Proof.
  intros Hg Hids Hkey. destruct (given_list wanted).
  - destruct (filterM_total (intersects key (list_to_set (default [] wanted))) ids g)
      as (ids' & H & Hsub).
    { intros n Hn. destruct (Hids n Hn) as [a Ha].
      destruct (Hg n a Ha) as [task Htask].
      by eapply intersects_task_node. }
    exists ids'. by split; [| split].
  - exists ids. by split; [| split].
Qed.

Section ListingTotal.
Variable sort_nodes : graph → string → Z → bool → bool → result (list Z).
Variable Pattern : Type.
Variable re_compile : string → result Pattern.

(** X21: in a graph whose nodes are tasks, when the sort step returns ids of
    the graph and no search text is given (or an empty one), [list_tasks]
    returns, and the graph is the one it was given.  It returns at most as
    many tasks as the sort step returned ids; without any filter, it returns
    the task of every id, in the order of the sort step. *)
Theorem list_tasks_returns (g : graph) (sort_by : string) (limit : Z)
    (ascending only_leaves : bool) (search : option string)
    (tags urls users : option (list string)) (ids : list Z) :
  task_graph g →
  sort_nodes g sort_by limit ascending only_leaves = Ok ids →
  (∀ n, n ∈ ids → is_Some (g !! n)) →
  search = None ∨ search = Some "" →
  ∃ res,
    list_tasks sort_nodes Pattern re_compile sort_by limit ascending only_leaves
      search tags urls users g = (g, Ok res) ∧
    (length res ≤ length ids)%nat ∧
    (given_list tags = false → given_list urls = false →
     given_list users = false → Forall2 (stored g) ids res).
Proof.
  intros Hg Hsort Hids Hsearch.
  assert (Hs : given_str search = false) by (by destruct Hsearch as [-> | ->]).
  destruct (member_total "tags" tags ids g Hg Hids) as (ids1 & H1 & Hsub1 & Heq1);
    [by repeat constructor |].
  assert (Hids1 : ∀ n, n ∈ ids1 → is_Some (g !! n))
    by (intros n Hn; apply Hids; by eapply elem_of_sublist).
  destruct (member_total "urls" urls ids1 g Hg Hids1) as (ids2 & H2 & Hsub2 & Heq2);
    [by repeat constructor |].
  assert (Hids2 : ∀ n, n ∈ ids2 → is_Some (g !! n))
    by (intros n Hn; apply Hids1; by eapply elem_of_sublist).
  destruct (member_total "users" users ids2 g Hg Hids2) as (ids3 & H3 & Hsub3 & Heq3);
    [by repeat constructor |].
  assert (Hids3 : ∀ n, n ∈ ids3 → is_Some (g !! n))
    by (intros n Hn; apply Hids2; by eapply elem_of_sublist).
  destruct (mapM_total nodes_getitem ids3 g) as (seen & Hseen & _).
  { intros n Hn. destruct (Hids3 n Hn) as [a Ha]. exists a.
    unfold nodes_getitem. by rewrite Ha. }
  destruct (mapM_total
              (fun node_id => a ← nodes_getitem node_id; lift (Task_init a)) ids3 g)
    as (res & Hres & Hall).
  { intros n Hn. destruct (Hids3 n Hn) as [a Ha].
    destruct (Hg n a Ha) as [task Htask]. exists task.
    rewrite M_bind_eq. unfold nodes_getitem, lift. by rewrite Ha, Htask. }
  assert (Hst : Forall2 (stored g) ids3 res).
  { eapply Forall2_impl; [exact Hall |]. intros n task Hn. apply read_node_stored. exact Hn. }
  exists res. split; [| split].
  - unfold list_tasks. rewrite M_bind_eq, Hsort, Hs. cbv zeta.
    rewrite (M_bind_ret _ _ g g ids) by done.
    rewrite (M_bind_ret _ _ _ _ _ H1), (M_bind_ret _ _ _ _ _ H2),
      (M_bind_ret _ _ _ _ _ H3), (M_bind_ret _ _ _ _ _ Hseen).
    exact Hres.
  - rewrite <- (Forall2_length _ _ _ Hst).
    etrans; [by apply sublist_length |].
    etrans; [by apply sublist_length |]. by apply sublist_length.
  - intros Ht Hu Hus. rewrite <- (Heq1 Ht), <- (Heq2 Hu), <- (Heq3 Hus). exact Hst.
Qed.

(** X22: an empty search text, and an empty list of tags, urls or users, is the
    same as none: [list_tasks] gives the same outcome. *)
Theorem list_tasks_empty_filter (g : graph) (sort_by : string) (limit : Z)
    (ascending only_leaves : bool) (search : option string)
    (tags urls users : option (list string)) :
  list_tasks sort_nodes Pattern re_compile sort_by limit ascending only_leaves
    (Some "") tags urls users g
  = list_tasks sort_nodes Pattern re_compile sort_by limit ascending only_leaves
      None tags urls users g ∧
  list_tasks sort_nodes Pattern re_compile sort_by limit ascending only_leaves
    search (Some []) urls users g
  = list_tasks sort_nodes Pattern re_compile sort_by limit ascending only_leaves
      search None urls users g ∧
  list_tasks sort_nodes Pattern re_compile sort_by limit ascending only_leaves
    search tags (Some []) users g
  = list_tasks sort_nodes Pattern re_compile sort_by limit ascending only_leaves
      search tags None users g ∧
  list_tasks sort_nodes Pattern re_compile sort_by limit ascending only_leaves
    search tags urls (Some []) g
  = list_tasks sort_nodes Pattern re_compile sort_by limit ascending only_leaves
      search tags urls None g.
Proof. repeat split; reflexivity. Qed.

(** X23: errors of the two steps that come first surface as they are, with the
    graph as it was given: an exception of the sort step, and, when a
    search text is given, an exception of [re.compile]. *)
Theorem list_tasks_raises (g : graph) (sort_by : string) (limit : Z)
    (ascending only_leaves : bool) (search : option string)
    (tags urls users : option (list string)) (e : exn) :
  (sort_nodes g sort_by limit ascending only_leaves = Raise e →
   list_tasks sort_nodes Pattern re_compile sort_by limit ascending only_leaves
     search tags urls users g = (g, Raise e)) ∧
  (∀ ids text,
     sort_nodes g sort_by limit ascending only_leaves = Ok ids →
     search = Some text → text ≠ "" →
     re_compile text = Raise e →
     list_tasks sort_nodes Pattern re_compile sort_by limit ascending only_leaves
       search tags urls users g = (g, Raise e)).
Proof.
  split.
  - intros Hsort. unfold list_tasks. by rewrite M_bind_eq, Hsort.
  - intros ids text Hsort -> Hne Hc. unfold list_tasks.
    rewrite M_bind_eq, Hsort.
    assert (given_str (Some text) = true) as ->.
    { simpl. apply bool_decide_eq_true. by destruct text. }
    rewrite M_bind_eq, M_bind_eq. unfold lift at 1. simpl default. by rewrite Hc.
Qed.
End ListingTotal.

Lemma task_graph2 : task_graph graph2.
Proof.
  apply consistent_task_graph.
  exact (create_task_consistent graph1 other_task
           (create_task_consistent ∅ full_task consistent_empty)).
Qed.

Lemma sample_sort_ids (g : graph) (sort_by : string) (limit : Z)
    (ascending only_leaves : bool) (ids : list Z) :
  sample_sort g sort_by limit ascending only_leaves = Ok ids →
  ∀ n, n ∈ ids → is_Some (g !! n).
Proof.
  intros [= <-] n Hn.
  pose proof (elem_of_sublist _ _ _ Hn (sublist_take _ _)) as Hn'.
  apply list_elem_of_fmap in Hn' as ([n' a] & -> & Ha).
  apply elem_of_map_to_list in Ha. eauto.
Qed.

Lemma list_tasks_returns_witness :
  let ids := take (Z.to_nat 10) (map_to_list graph2).*1 in
  ∃ res,
    list_tasks sample_sort string sample_compile "importance" 10 false false
      (Some "") (Some ["z"]) None None graph2 = (graph2, Ok res) ∧
    (length res ≤ length ids)%nat ∧
    (given_list (Some ["z"]) = false → given_list None = false →
     given_list None = false → Forall2 (stored graph2) ids res).
Proof.
  exact (list_tasks_returns sample_sort string sample_compile graph2
           "importance" 10 false false (Some "") (Some ["z"]) None None _
           task_graph2 eq_refl
           (sample_sort_ids graph2 "importance" 10 false false _ eq_refl)
           (or_intror eq_refl)).
Defined.

Lemma list_tasks_raises_witness :
  list_tasks (fun _ _ _ _ _ => Raise KeyError) string sample_compile
    "importance" 10 false false None None None None graph2
    = (graph2, Raise KeyError) ∧
  list_tasks sample_sort string (fun _ => Raise ReError)
    "importance" 10 false false (Some "(") None None None graph2
    = (graph2, Raise ReError).
Proof.
  split.
  - exact (proj1 (list_tasks_raises (fun _ _ _ _ _ => Raise KeyError) string
                    sample_compile graph2 "importance" 10 false false
                    None None None None KeyError) eq_refl).
  - refine (proj2 (list_tasks_raises sample_sort string (fun _ => Raise ReError)
                     graph2 "importance" 10 false false
                     (Some "(") None None None ReError)
              _ "(" eq_refl eq_refl _ eq_refl).
    discriminate.
Defined.
